(** * Dendrite call lifecycle of bittensor: a shallow embedding

    The development follows two source files,
    [bittensor/_dendrite/text_to_image/dendrite.py] (the call descriptor
    [TextToImageForwardCall] and the facade [TextToImageDendrite]) and
    [bittensor/_synapse/text_causal_lm/dendrite.py] (the facade
    [TextCausalLMDendrite]).

    Python objects are records, methods take [self] explicitly, a method
    that may assign to [self] returns the new [self] next to its value,
    and a coroutine is a resumption tree with one kind of suspension: the
    wait for the transport's answer. *)

From Stdlib Require Import ZArith List String Bool Lia.
From Stdlib.Strings Require Import Byte.
From Stdlib Require Import DecimalString.
Import ListNotations.

Local Open Scope string_scope.
Local Open Scope Z_scope.

Set Implicit Arguments.

(* ================================================================== *)
(** ** Python values *)

(** [bytes]: a sequence of octets; [b''] is [[]]. *)
Definition bytes := list byte.

(** A parameter with a default value: [None] when the caller leaves it
    out. *)
Definition default {A : Type} (d : A) (given : option A) : A :=
  match given with
  | Some a => a
  | None => d
  end.

(** [str], for a text a caller passes in: the sequence of its Unicode
    code points, which is what [len] counts.  The texts the files write
    themselves (names, metadata) are ASCII and stay [string]s. *)
Definition unicode : Type := list N.

(** An ASCII literal as a [str]. *)
Definition literal (s : string) : unicode :=
  List.map Ascii.N_of_ascii (list_ascii_of_string s).

(** [str(n)] for an [int]: the decimal numeral, with a leading minus for
    a negative number. *)
Definition str (n : Z) : string := NilZero.string_of_int (Z.to_int n).

(** [torch.Size]: the list of dimensions. *)
Definition Size := list nat.

(** The exceptions a call can end with.  [TimeoutError] is
    [asyncio.TimeoutError], [RpcError] is [grpc.RpcError] with its status
    code; the two others are raised by the serializer, when it encodes an
    input and when it decodes a response. *)
Inductive exn : Type :=
| TimeoutError
| RpcError (code : Z)
| SerializationError
| MalformedResponseError.

(** What evaluating a Python expression gives: a value or a raised
    exception. *)
Inductive result (A : Type) : Type :=
| Ok (a : A)
| Exc (e : exn).
Arguments Exc {A} e.

(** A method of a mutable object: from [self] to the returned value and
    [self] after the call. *)
Definition method (S A : Type) : Type := S -> A * S.

(* ================================================================== *)
(** ** asyncio: coroutines and the event loop *)

Module asyncio.

(** What a gRPC stub method is called with. *)
Record Invocation (Op Req : Type) : Type := {
  callable : Op;
  request : Req;
  timeout : Z;
  metadata : list (string * string)
}.

(** A coroutine that returns an [A].  [Await call wait k] stands for
    [r = await asyncio.wait_for(stub(call), timeout = wait)] followed by
    [k r]; it is the only place a coroutine of these files suspends. *)
Inductive coro (Op Req Resp A : Type) : Type :=
| Return (a : A)
| Raise (e : exn)
| Await (call : Invocation Op Req) (wait : Z)
        (k : result Resp -> coro Op Req Resp A).
Arguments Return {Op Req Resp A} a.
Arguments Raise {Op Req Resp A} e.

Section Coroutines.
Context {Op Req Resp : Type}.

(** [b = await c] followed by [f b], inside another coroutine. *)
Fixpoint bind {A B : Type} (c : coro Op Req Resp A)
    (f : A -> coro Op Req Resp B) : coro Op Req Resp B :=
  match c with
  | Return a => f a
  | Raise e => Raise e
  | Await call wait k => Await call wait (fun r => bind (k r) f)
  end.

(** What the remote end does with one invocation: it answers after
    [latency] ticks, it fails after [latency] ticks with a status code,
    or it stays silent for ever. *)
Inductive behaviour : Type :=
| Responds (latency : Z) (response : Resp)
| Fails (latency : Z) (code : Z)
| NeverResponds.

(** [asyncio.wait_for(fut, timeout)]: the future's result when it is
    there strictly before the deadline, [asyncio.TimeoutError] otherwise.
    The second component is the time spent waiting; a timer of the loop
    fires [lateness] ticks after it is due, never before.  A call that
    is slow to honour its cancellation, or that answers while it is being
    cancelled, is left out: the time it would add is not counted, so the
    model bounds a wait from below only. *)
Definition wait_for (b : behaviour) (timeout : Z) (lateness : N)
  : result Resp * Z :=
  let expired : result Resp * Z :=
    (Exc TimeoutError, Z.max 0 timeout + Z.of_N lateness) in
  match b with
  | Responds latency response =>
      if latency <? timeout then (Ok response, Z.max 0 latency) else expired
  | Fails latency code =>
      if latency <? timeout then (Exc (RpcError code), Z.max 0 latency)
      else expired
  | NeverResponds => expired
  end.

(** The event loop as a call sees it: the transport behind the stubs,
    the lateness of its timers and its clock when the call starts. *)
Record EventLoop : Type := {
  transport : Invocation Op Req -> behaviour;
  lateness : N;
  time : Z
}.

(** A finished run: the value or exception, the loop's clock at the end
    and the invocations handed to the transport, oldest first. *)
Record Run (A : Type) : Type := {
  outcome : result A;
  clock : Z;
  dispatched : list (Invocation Op Req)
}.

Fixpoint drive {A : Type} (loop : EventLoop) (c : coro Op Req Resp A)
    (now : Z) (log : list (Invocation Op Req)) : Run A :=
  match c with
  | Return a => {| outcome := Ok a; clock := now; dispatched := log |}
  | Raise e => {| outcome := Exc e; clock := now; dispatched := log |}
  | Await call wait k =>
      let '(r, spent) := wait_for (transport loop call) wait (lateness loop) in
      drive loop (k r) (now + spent) (log ++ [call])%list
  end.

(** [loop.run_until_complete(c)]. *)
Definition run_until_complete {A : Type} (loop : EventLoop)
    (c : coro Op Req Resp A) : Run A :=
  drive loop c (time loop) [].

(** A blocking caller's continuation after [run_until_complete]: [f] on
    the value, the exception passed on. *)
Definition and_then {A B : Type} (r : Run A) (f : A -> result B) : Run B :=
  {| outcome := match outcome r with Ok a => f a | Exc e => Exc e end;
     clock := clock r;
     dispatched := dispatched r |}.

End Coroutines.

Arguments behaviour Resp : clear implicits.
Arguments EventLoop Op Req Resp : clear implicits.
Arguments Run Op Req A : clear implicits.

End asyncio.

(* ================================================================== *)
(** ** The bittensor package around the two files *)

(** What the two files use of the rest of the package and of torch,
    none of it defined in them: the objects they hold, the constants
    [bittensor.__blocktime__] and [bittensor.__version_as_int__], the
    constructors they call and the serializer behind
    [bittensor.serializer(serializer_type = s)].  [serialize s x] is
    [.serialize(x, from_type = TORCH)] and [deserialize s b] is
    [.deserialize(b, to_type = TORCH)]; [None] when the call raises. *)
Class Bittensor : Type := {
  Tensor : Type;
  Wallet : Type;
  Endpoint : Type;
  Receptor : Type;
  Channel : Type;
  Dendrite : Type;
  Serializer : Type;
  MSGPACK : Serializer;
  __blocktime__ : Z;
  __version_as_int__ : Z;
  bittensor_wallet : unit -> Wallet;
  endpoint_from_tensor : Tensor -> Endpoint;
  bittensor_receptor : Endpoint -> Wallet -> Receptor;
  receptor_sign : Receptor -> string;
  channel : Dendrite -> Channel;
  dendrite_sign : Dendrite -> string;
  serialize : Serializer -> Tensor -> option bytes;
  deserialize : Serializer -> bytes -> option Tensor
}.

(** The wire messages, with the fields the two files read and write. *)
Module proto.

Record ForwardTextToImageRequest : Type := { text : unicode }.

Record ForwardTextToImageResponse : Type := { image : bytes }.

Record ForwardTextCausalLMRequest `{Bittensor} : Type := {
  serialized_text_inputs : bytes;
  text_inputs_serializer_type : Serializer;
  hidden_states_serializer_type : Serializer
}.

Record ForwardTextCausalLMResponse : Type := { hidden_states : bytes }.

End proto.

(** The stub methods the two files call. *)
Module grpc.

Inductive TextToImageStub `{Bittensor} : Type :=
| Forward (channel : Channel).

Inductive TextCausalLMStub `{Bittensor} : Type :=
| ForwardTextLastHiddenState (receptor : Receptor).

End grpc.

(** The states of a call, as section 4.2 of the specification names
    them. *)
Inductive CallState : Type :=
| Created
| Serializing
| Dispatched
| AwaitingResponse
| Completed
| Failed
| TimedOut.

Module DendriteCall.

(** Modelled from the spec: the base class [bittensor.DendriteCall], of
    which the source has only the call [super().__init__(dendrite,
    timeout)].  It keeps the two arguments and, for the specification's
    "status" and "the error is attached to the descriptor", the state of
    the call and its error. *)
Record t `{Bittensor} : Type := {
  dendrite : Dendrite;
  timeout : Z;
  state : CallState;
  error : option exn
}.

Definition __init__ `{Bittensor} (dendrite : Dendrite) (timeout : Z) : t :=
  {| dendrite := dendrite; timeout := timeout;
     state := Created; error := None |}.

Definition enter `{Bittensor} (s : CallState) (e : option exn) (self : t) : t :=
  {| dendrite := dendrite self; timeout := timeout self;
     state := s; error := e |}.

End DendriteCall.

(* ================================================================== *)
(** ** text_to_image/dendrite.py *)

Module TextToImageForwardCall.

Section Descriptor.
Context `{Bittensor}.

(** An instance: the state of the base class, [self.text], and
    [self.image], which reads the class attribute [b''] until
    [apply_response_proto] assigns it. *)
Record t : Type := {
  super : DendriteCall.t;
  text : unicode;
  image : bytes
}.

Definition name : string := "text_to_image_forward".
Definition is_forward : bool := true.

Definition __init__ (dendrite : Dendrite) (text : unicode)
    (timeout : option Z) : t :=
  {| super := DendriteCall.__init__ dendrite (default __blocktime__ timeout);
     text := text;
     image := [] |}.

Definition get_callable : method t grpc.TextToImageStub :=
  fun self => (grpc.Forward (channel (DendriteCall.dendrite (super self))), self).

Definition get_request_proto : method t proto.ForwardTextToImageRequest :=
  fun self => ({| proto.text := text self |}, self).

Definition apply_response_proto
    (response_proto : proto.ForwardTextToImageResponse) : method t unit :=
  fun self =>
    (tt, {| super := super self;
            text := text self;
            image := proto.image response_proto |}).

Definition get_inputs_shape : method t Size :=
  fun self => ([List.length (text self)], self).

Definition get_outputs_shape : method t Size :=
  fun self => ([List.length (image self)], self).

End Descriptor.

End TextToImageForwardCall.

(** What [TextToImageDendrite] inherits from [bittensor.Dendrite], a
    class the file does not define: the event loop [self.loop] and the
    coroutine [self.apply(dendrite_call = ...)]. *)
Class DendriteBase `{Bittensor} : Type := {
  loop : Dendrite ->
         asyncio.EventLoop grpc.TextToImageStub
           proto.ForwardTextToImageRequest proto.ForwardTextToImageResponse;
  apply : Dendrite -> TextToImageForwardCall.t ->
          asyncio.coro grpc.TextToImageStub
            proto.ForwardTextToImageRequest proto.ForwardTextToImageResponse
            TextToImageForwardCall.t
}.

Module TextToImageDendrite.

Section Facade.
Context `{DendriteBase}.

(** [Union[str, TextToImageForwardCall]]: the descriptor when
    [return_call], its [image] otherwise. *)
Definition returned : Type := (TextToImageForwardCall.t + bytes)%type.

Definition forward (self : Dendrite) (text : unicode) (timeout : option Z)
    (return_call : option bool)
  : asyncio.Run grpc.TextToImageStub proto.ForwardTextToImageRequest returned :=
  let timeout := default __blocktime__ timeout in
  let return_call := default true return_call in
  let forward_call := TextToImageForwardCall.__init__ self text (Some timeout) in
  asyncio.and_then
    (asyncio.run_until_complete (loop self) (apply self forward_call))
    (fun response_call =>
       if return_call then Ok (inl response_call)
       else Ok (inr (TextToImageForwardCall.image response_call))).

Definition async_forward (self : Dendrite) (text : unicode)
    (timeout : option Z) (return_call : option bool)
  : asyncio.coro grpc.TextToImageStub proto.ForwardTextToImageRequest
      proto.ForwardTextToImageResponse returned :=
  let timeout := default __blocktime__ timeout in
  let return_call := default true return_call in
  let forward_call := TextToImageForwardCall.__init__ self text (Some timeout) in
  asyncio.bind (apply self forward_call)
    (fun forward_call =>
       if return_call then asyncio.Return (inl forward_call)
       else asyncio.Return (inr (TextToImageForwardCall.image forward_call))).

End Facade.

End TextToImageDendrite.

(* ================================================================== *)
(** ** text_causal_lm/dendrite.py *)

Module TextCausalLMDendrite.

Section Facade.
Context `{Bittensor}.

Record t : Type := {
  wallet : Wallet;
  endpoint : Endpoint;
  receptor : Receptor;
  _text_inputs_serializer_type : Serializer;
  _hidden_states_serializer_type : Serializer
}.

(** [endpoint] is [Union[bittensor.Endpoint, torch.Tensor]] ([inl] an
    endpoint, [inr] a tensor), [wallet] is [Optional[bittensor.wallet]]. *)
Definition __init__ (endpoint : Endpoint + Tensor) (wallet : option Wallet)
    (text_inputs_serializer_type hidden_states_serializer_type
       : option Serializer) : t :=
  let text_inputs_serializer_type :=
    default MSGPACK text_inputs_serializer_type in
  let hidden_states_serializer_type :=
    default MSGPACK hidden_states_serializer_type in
  let wallet :=
    match wallet with
    | None => bittensor_wallet tt
    | Some w => w
    end in
  let endpoint :=
    match endpoint with
    | inr tensor => endpoint_from_tensor tensor
    | inl e => e
    end in
  {| wallet := wallet;
     endpoint := endpoint;
     receptor := bittensor_receptor endpoint wallet;
     _text_inputs_serializer_type := text_inputs_serializer_type;
     _hidden_states_serializer_type := hidden_states_serializer_type |}.

Definition coroutine : Type -> Type :=
  asyncio.coro grpc.TextCausalLMStub proto.ForwardTextCausalLMRequest
    proto.ForwardTextCausalLMResponse.

(** The pairs handed to the stub as [metadata]. *)
Definition call_metadata (self : t) : list (string * string) :=
  [ ("rpc-auth-header", "Bittensor");
    ("bittensor-signature", receptor_sign (receptor self));
    ("bittensor-version", str __version_as_int__) ]%string.

(** The request of [async_forward] for an encoded input. *)
Definition build_request (self : t) (serialized_text : bytes)
  : proto.ForwardTextCausalLMRequest :=
  {| proto.serialized_text_inputs := serialized_text;
     proto.text_inputs_serializer_type := _text_inputs_serializer_type self;
     proto.hidden_states_serializer_type :=
       _hidden_states_serializer_type self |}.

Definition async_forward (self : t) (text_inputs : Tensor)
    (timeout : option Z) : coroutine Tensor :=
  let timeout := default __blocktime__ timeout in
  (* Serialize the text inputs. *)
  match serialize (_text_inputs_serializer_type self) text_inputs with
  | None => asyncio.Raise SerializationError
  | Some serialized_text =>
      (* Build the request. *)
      let request := build_request self serialized_text in
      (* Make the forward call and wait for the response. *)
      asyncio.Await
        {| asyncio.callable :=
             grpc.ForwardTextLastHiddenState (receptor self);
           asyncio.request := request;
           asyncio.timeout := timeout;
           asyncio.metadata := call_metadata self |}
        timeout
        (fun waited =>
           match waited with
           | Exc e => asyncio.Raise e
           | Ok grpc_response =>
               (* Deserialize the hidden states. *)
               match deserialize (_hidden_states_serializer_type self)
                       (proto.hidden_states grpc_response) with
               | None => asyncio.Raise MalformedResponseError
               | Some hidden_states => asyncio.Return hidden_states
               end
           end)
  end.

(** [event_loop] is the loop [asyncio.get_event_loop()] returns. *)
Definition forward
    (event_loop : asyncio.EventLoop grpc.TextCausalLMStub
                    proto.ForwardTextCausalLMRequest
                    proto.ForwardTextCausalLMResponse)
    (self : t) (text_inputs : Tensor) (timeout : option Z)
  : asyncio.Run grpc.TextCausalLMStub proto.ForwardTextCausalLMRequest Tensor :=
  let timeout := default __blocktime__ timeout in
  asyncio.run_until_complete event_loop
    (async_forward self text_inputs (Some timeout)).

End Facade.

End TextCausalLMDendrite.

(* ================================================================== *)
(** ** The endpoint client *)

Module EndpointClient.

(** Modelled from the spec: the contract of a call descriptor (section
    4.1), which in the package is the interface of
    [bittensor.DendriteCall].  [build_request] stands for the Serializing
    state, the encoding of the inputs followed by the request, and
    [apply_response] for the decoding of a response followed by its
    absorption; either raises when the serializer does. *)
Class CallDescriptor `{Bittensor} (C Op Req Resp : Type) : Type := {
  base : C -> DendriteCall.t;
  with_base : DendriteCall.t -> C -> C;
  select_operation : C -> Op;
  build_request : C -> result Req;
  apply_response : Resp -> C -> result C
}.

Section Client.
Context `{Bittensor} {C Op Req Resp : Type} `{!CallDescriptor C Op Req Resp}.

Definition enter (s : CallState) (e : option exn) (call : C) : C :=
  with_base (DendriteCall.enter s e (base call)) call.

Definition call_metadata (self : Dendrite) : list (string * string) :=
  [ ("rpc-auth-header", "Bittensor");
    ("bittensor-signature", dendrite_sign self);
    ("bittensor-version", str __version_as_int__) ]%string.

(** Modelled from the spec: [bittensor.Dendrite.apply], the state machine
    of section 4.2.  The descriptor goes Created, Serializing, Dispatched,
    AwaitingResponse and ends Completed, Failed or TimedOut; the error of
    a failed call is attached to the descriptor, which is returned, not
    raised. *)
Definition apply (self : Dendrite) (dendrite_call : C)
  : asyncio.coro Op Req Resp C :=
  let call := enter Serializing None dendrite_call in
  match build_request call with
  | Exc _ => asyncio.Return (enter Failed (Some SerializationError) call)
  | Ok request =>
      let call := enter Dispatched None call in
      let invocation :=
        {| asyncio.callable := select_operation call;
           asyncio.request := request;
           asyncio.timeout := DendriteCall.timeout (base call);
           asyncio.metadata := call_metadata self |} in
      let call := enter AwaitingResponse None call in
      asyncio.Await invocation (DendriteCall.timeout (base call))
        (fun waited =>
           match waited with
           | Ok response =>
               match apply_response response call with
               | Ok call => asyncio.Return (enter Completed None call)
               | Exc _ =>
                   asyncio.Return
                     (enter Failed (Some MalformedResponseError) call)
               end
           | Exc TimeoutError =>
               asyncio.Return (enter TimedOut (Some TimeoutError) call)
           | Exc e => asyncio.Return (enter Failed (Some e) call)
           end)
  end.

(** The descriptor as it waits for the answer. *)
Definition awaiting (call : C) : C :=
  enter AwaitingResponse None (enter Dispatched None (enter Serializing None call)).

End Client.

(** [TextToImageForwardCall] as a descriptor: its request has nothing to
    encode and every response carries an [image]. *)
#[global] Instance TextToImage `{Bittensor}
  : CallDescriptor TextToImageForwardCall.t grpc.TextToImageStub
      proto.ForwardTextToImageRequest proto.ForwardTextToImageResponse := {
  base := TextToImageForwardCall.super;
  with_base := fun b call =>
    {| TextToImageForwardCall.super := b;
       TextToImageForwardCall.text := TextToImageForwardCall.text call;
       TextToImageForwardCall.image := TextToImageForwardCall.image call |};
  select_operation := fun call => fst (TextToImageForwardCall.get_callable call);
  build_request := fun call =>
    Ok (fst (TextToImageForwardCall.get_request_proto call));
  apply_response := fun response call =>
    Ok (snd (TextToImageForwardCall.apply_response_proto response call))
}.

End EndpointClient.

(** A [bittensor.Dendrite] whose [apply] is the state machine of
    [EndpointClient], on the event loops [loops] gives. *)
Definition client_dendrite `{Bittensor}
    (loops : Dendrite ->
             asyncio.EventLoop grpc.TextToImageStub
               proto.ForwardTextToImageRequest
               proto.ForwardTextToImageResponse)
  : DendriteBase :=
  {| loop := loops; apply := EndpointClient.apply |}.

(** What the endpoint client does on a text-to-image call, in closed
    form: its invocation and the descriptor it returns. *)
Section ClientOutcome.
Context `{Bittensor}.

Import TextToImageForwardCall.

(** The descriptor [apply] ends with, from what the wait gave. *)
Definition settled (call : t) (waited : result proto.ForwardTextToImageResponse)
  : t :=
  let base s e :=
    {| DendriteCall.dendrite := DendriteCall.dendrite (super call);
       DendriteCall.timeout := DendriteCall.timeout (super call);
       DendriteCall.state := s;
       DendriteCall.error := e |} in
  match waited with
  | Ok response =>
      {| super := base Completed None;
         text := text call;
         image := proto.image response |}
  | Exc TimeoutError =>
      {| super := base TimedOut (Some TimeoutError);
         text := text call;
         image := image call |}
  | Exc e =>
      {| super := base Failed (Some e);
         text := text call;
         image := image call |}
  end.

(** The one invocation [apply] makes for a text-to-image call. *)
Definition invocation (self : Dendrite) (call : t)
  : asyncio.Invocation grpc.TextToImageStub proto.ForwardTextToImageRequest :=
  {| asyncio.callable :=
       grpc.Forward (channel (DendriteCall.dendrite (super call)));
     asyncio.request := {| proto.text := text call |};
     asyncio.timeout := DendriteCall.timeout (super call);
     asyncio.metadata := EndpointClient.call_metadata self |}.

End ClientOutcome.

(* ================================================================== *)
(** ** Stubs: a package, endpoints and transports to run the calls on *)

Module Stub.

(** A serializer for tensors kept as flat lists of numbers: one octet
    per element, refused when an element does not fit; decoding expects
    an even number of octets. *)
Fixpoint encode (x : list nat) : option bytes :=
  match x with
  | [] => Some []
  | n :: rest =>
      match Byte.of_nat n, encode rest with
      | Some b, Some bs => Some (b :: bs)
      | _, _ => None
      end
  end.

Definition decode (b : bytes) : option (list nat) :=
  if Nat.even (List.length b) then Some (List.map Byte.to_nat b) else None.

#[local] Instance package : Bittensor := {
  Tensor := list nat;
  Wallet := string;
  Endpoint := string;
  Receptor := string * string;
  Channel := string;
  Dendrite := string;
  Serializer := unit;
  MSGPACK := tt;
  __blocktime__ := 12;
  __version_as_int__ := 507;
  bittensor_wallet := fun _ => "default"%string;
  endpoint_from_tensor := fun tensor =>
    String.concat "." (List.map (fun n => str (Z.of_nat n)) tensor);
  bittensor_receptor := fun endpoint wallet => (endpoint, wallet);
  receptor_sign := fun r => ("signed:" ++ snd r)%string;
  channel := fun dendrite => dendrite;
  dendrite_sign := fun dendrite => ("signed:" ++ dendrite)%string;
  serialize := fun _ => encode;
  deserialize := fun _ => decode
}.

(** Transports: one that never answers, one that answers every request
    after three ticks with the same message, one that rejects. *)
Definition silent {Op Req Resp : Type} : asyncio.EventLoop Op Req Resp :=
  {| asyncio.transport := fun _ => asyncio.NeverResponds;
     asyncio.lateness := 1;
     asyncio.time := 100 |}.

Definition answering {Op Req Resp : Type} (response : Resp)
  : asyncio.EventLoop Op Req Resp :=
  {| asyncio.transport := fun _ => asyncio.Responds 3 response;
     asyncio.lateness := 1;
     asyncio.time := 100 |}.

Definition rejecting {Op Req Resp : Type} (code : Z)
  : asyncio.EventLoop Op Req Resp :=
  {| asyncio.transport := fun _ => asyncio.Fails 3 code;
     asyncio.lateness := 1;
     asyncio.time := 100 |}.

Definition picture : proto.ForwardTextToImageResponse :=
  {| proto.image := [x89; x50; x4e; x47] |}.

(** A causal-LM client for the endpoint given as the tensor [[10; 0; 0; 7]]
    with the default wallet and serializers. *)
Definition lm : TextCausalLMDendrite.t :=
  TextCausalLMDendrite.__init__ (inr [10; 0; 0; 7]%nat) None None None.

End Stub.

(* ================================================================== *)
(** ** commands/root.py *)

(** [rich.prompt]: the terminal as [Prompt.ask] sees it. *)
Module rich.

(** One call of [Prompt.ask]: the text shown, the choices offered when
    there are any, and the default. *)
Record Question : Type := {
  prompt : string;
  choices : option (list string);
  default_answer : string
}.

(** [pending] holds what the next calls of [Prompt.ask] return, in
    order; with none left the call raises, as it does at the end of the
    input.  [shown] holds the questions asked so far, oldest first. *)
Record Console : Type := {
  pending : list string;
  shown : list Question
}.

Definition Prompt_ask (q : Question) (console : Console)
  : option string * Console :=
  match pending console with
  | [] => (None, {| pending := []; shown := (shown console ++ [q])%list |})
  | answer :: rest =>
      (Some answer,
       {| pending := rest; shown := (shown console ++ [q])%list |})
  end.

End rich.

(** What [commands/root.py] uses of the package and does not define:
    the networks [bittensor.__networks__], the values of [defaults], and
    the wallet and the subtensor connection built from a configuration,
    kept as the configuration they were built from is all the file
    shows. *)
Class Defaults : Type := {
  __networks__ : list string;
  defaults_subtensor_network : string;
  defaults_wallet_name : string;
  defaults_wallet_hotkey : string
}.

Module config.

Record subtensor_t : Type := { network : string }.

Record wallet_t : Type := { name : string; hotkey : string }.

(** A [bittensor.config] as the command reads and writes it.  [is_set]
    answers from what the command line gave, which an assignment to an
    attribute does not change. *)
Record t : Type := {
  is_set : string -> bool;
  no_prompt : bool;
  subtensor : subtensor_t;
  wallet : wallet_t
}.

End config.

Module RootRegisterCommand.

(** A statement of [check_config]: it reads and assigns the
    configuration, talks to the terminal, and returns [None] when a
    prompt raised, with what was assigned until then. *)
Definition command (A : Type) : Type :=
  config.t * rich.Console -> option A * (config.t * rich.Console).

Definition ret {A : Type} (a : A) : command A := fun s => (Some a, s).

Definition seq {A B : Type} (c : command A) (f : A -> command B) : command B :=
  fun s =>
    match c s with
    | (Some a, s') => f a s'
    | (None, s') => (None, s')
    end.

Notation "x <- c ;; f" := (seq c (fun x => f))
  (at level 61, c at next level, right associativity).
Notation "c ;; f" := (seq c (fun _ => f))
  (at level 61, right associativity).

(** [if not config.is_set(key) and not config.no_prompt: body]. *)
Definition unless_given (key : string) (body : command unit) : command unit :=
  fun s =>
    if negb (config.is_set (fst s) key) && negb (config.no_prompt (fst s))
    then body s
    else (Some tt, s).

Definition ask (q : rich.Question) : command string :=
  fun s =>
    let '(answer, console) := rich.Prompt_ask q (snd s) in
    (answer, (fst s, console)).

(** The three assignments. *)
Definition set_subtensor_network (value : string) : command unit :=
  fun s =>
    let c := fst s in
    (Some tt,
     ({| config.is_set := config.is_set c;
         config.no_prompt := config.no_prompt c;
         config.subtensor := {| config.network := value |};
         config.wallet := config.wallet c |}, snd s)).

Definition set_wallet_name (value : string) : command unit :=
  fun s =>
    let c := fst s in
    (Some tt,
     ({| config.is_set := config.is_set c;
         config.no_prompt := config.no_prompt c;
         config.subtensor := config.subtensor c;
         config.wallet :=
           {| config.name := value;
              config.hotkey := config.hotkey (config.wallet c) |} |}, snd s)).

Definition set_wallet_hotkey (value : string) : command unit :=
  fun s =>
    let c := fst s in
    (Some tt,
     ({| config.is_set := config.is_set c;
         config.no_prompt := config.no_prompt c;
         config.subtensor := config.subtensor c;
         config.wallet :=
           {| config.name := config.name (config.wallet c);
              config.hotkey := value |} |}, snd s)).

(** [str(s)] of a [str]. *)
Definition str_of_str (s : string) : string := s.

Section Command.
Context `{Defaults}.

Definition network_question : rich.Question :=
  {| rich.prompt := "Enter subtensor network";
     rich.choices := Some __networks__;
     rich.default_answer := defaults_subtensor_network |}.

Definition wallet_name_question : rich.Question :=
  {| rich.prompt := "Enter wallet name";
     rich.choices := None;
     rich.default_answer := defaults_wallet_name |}.

Definition hotkey_question : rich.Question :=
  {| rich.prompt := "Enter hotkey name";
     rich.choices := None;
     rich.default_answer := defaults_wallet_hotkey |}.

Definition check_config : command unit :=
  unless_given "subtensor.network"
    (answer <- ask network_question ;;
     set_subtensor_network answer) ;;
  unless_given "wallet.name"
    (wallet_name <- ask wallet_name_question ;;
     set_wallet_name (str_of_str wallet_name)) ;;
  unless_given "wallet.hotkey"
    (hotkey <- ask hotkey_question ;;
     set_wallet_hotkey (str_of_str hotkey)).

(** The [cli] object handed to [run], of which it reads [cli.config]. *)
Record cli : Type := { cli_config : config.t }.

(** The call [subtensor.root_register(wallet = ..., prompt = ...)] that
    [run] ends with: the wallet and the connection, each known by the
    configuration it was built from, and the flag. *)
Record root_register : Type := {
  of_subtensor : config.t;
  of_wallet : config.t;
  with_prompt : bool
}.

Definition run (cli : cli) : root_register :=
  let wallet := cli_config cli in
  let subtensor := cli_config cli in
  {| of_subtensor := subtensor;
     of_wallet := wallet;
     with_prompt := negb (config.no_prompt (cli_config cli)) |}.

End Command.

(** The keys [check_config] may ask for, in the order it asks. *)
Inductive key : Type := Network | WalletName | WalletHotkey.

Definition dotted (k : key) : string :=
  match k with
  | Network => "subtensor.network"
  | WalletName => "wallet.name"
  | WalletHotkey => "wallet.hotkey"
  end.

Definition question `{Defaults} (k : key) : rich.Question :=
  match k with
  | Network => network_question
  | WalletName => wallet_name_question
  | WalletHotkey => hotkey_question
  end.

Definition value (k : key) (c : config.t) : string :=
  match k with
  | Network => config.network (config.subtensor c)
  | WalletName => config.name (config.wallet c)
  | WalletHotkey => config.hotkey (config.wallet c)
  end.

(** The configuration with [entry]'s value assigned to its key. *)
Definition assign (c : config.t) (entry : key * string) : config.t :=
  let wallet := config.wallet c in
  match fst entry with
  | Network =>
      {| config.is_set := config.is_set c;
         config.no_prompt := config.no_prompt c;
         config.subtensor := {| config.network := snd entry |};
         config.wallet := wallet |}
  | WalletName =>
      {| config.is_set := config.is_set c;
         config.no_prompt := config.no_prompt c;
         config.subtensor := config.subtensor c;
         config.wallet :=
           {| config.name := snd entry; config.hotkey := config.hotkey wallet |} |}
  | WalletHotkey =>
      {| config.is_set := config.is_set c;
         config.no_prompt := config.no_prompt c;
         config.subtensor := config.subtensor c;
         config.wallet :=
           {| config.name := config.name wallet; config.hotkey := snd entry |} |}
  end.

(** The keys the command line left out, when prompting is allowed. *)
Definition missing (c : config.t) : list key :=
  if config.no_prompt c then []
  else List.filter (fun k => negb (config.is_set c (dotted k)))
         [Network; WalletName; WalletHotkey].

End RootRegisterCommand.

(* ================================================================== *)
(** ** coati/models/auto/critic.py *)

(** What [critic.py] uses of [transformers], each [None] when the call
    raises: [AutoConfig()] and [AutoModel(config)], which the library
    refuses for its auto classes, [AutoModel.from_pretrained], which
    needs a name it knows, the method [gradient_checkpointing_enable],
    which works on the model in place where the model supports it, and
    [model.config.word_embed_proj_dim], an attribute only some
    configurations have. *)
Class Transformers : Type := {
  AutoConfig : Type;
  AutoModel : Type;
  AutoConfig_new : option AutoConfig;
  from_pretrained : string -> option AutoModel;
  AutoModel_new : AutoConfig -> option AutoModel;
  gradient_checkpointing_enable : AutoModel -> option AutoModel;
  word_embed_proj_dim : AutoModel -> option Z
}.

Module AutoCritic.

(** [nn.Linear(in_features, out_features)]. *)
Record Linear : Type := { in_features : Z; out_features : Z }.

(** What [__init__] hands to [Critic.__init__]; the keyword arguments
    it passes on untouched are left out. *)
Record t `{Transformers} : Type := {
  model : AutoModel;
  value_head : Linear;
  lora_rank : Z;
  lora_train_bias : string
}.

(** A statement that may raise, followed by the rest. *)
Definition and_then {A B : Type} (a : option A) (rest : A -> option B)
  : option B :=
  match a with
  | Some x => rest x
  | None => None
  end.

(** [None] when a call of [__init__] raises, before [Critic.__init__]
    is reached. *)
Definition __init__ `{Transformers} (pretrained : option string)
    (config : option AutoConfig) (checkpoint : option bool)
    (lora_rank : option Z) (lora_train_bias : option string) : option t :=
  let checkpoint := default false checkpoint in
  let lora_rank := default 0 lora_rank in
  let lora_train_bias := default "none"%string lora_train_bias in
  and_then
    match pretrained with
    | Some pretrained => from_pretrained pretrained
    | None =>
        match config with
        | Some config => AutoModel_new config
        | None => and_then AutoConfig_new AutoModel_new
        end
    end
    (fun model =>
       and_then
         (if checkpoint then gradient_checkpointing_enable model
          else Some model)
         (fun model =>
            and_then (word_embed_proj_dim model)
              (fun dim =>
                 let value_head :=
                   {| in_features := dim; out_features := 1 |} in
                 Some {| model := model; value_head := value_head;
                         lora_rank := lora_rank;
                         lora_train_bias := lora_train_bias |}))).

End AutoCritic.

(** A terminal, defaults and configurations to run the command on. *)
Module StubTerminal.

#[local] Instance defaults : Defaults := {
  __networks__ := ["finney"; "test"; "local"]%string;
  defaults_subtensor_network := "finney"%string;
  defaults_wallet_name := "default"%string;
  defaults_wallet_hotkey := "default"%string
}.

(** The command line gave the wallet name and nothing else. *)
Definition named_wallet (no_prompt : bool) : config.t :=
  {| config.is_set := fun key => String.eqb key "wallet.name";
     config.no_prompt := no_prompt;
     config.subtensor := {| config.network := "finney" |};
     config.wallet := {| config.name := "cold"; config.hotkey := "default" |} |}%string.

Definition typed (answers : list string) : rich.Console :=
  {| rich.pending := answers; rich.shown := [] |}.

End StubTerminal.

(** A library that, like [transformers], refuses [AutoConfig()] and
    [AutoModel(config)] and knows one checkpoint; a model is kept as the
    [word_embed_proj_dim] of its configuration. *)
Module StubTransformers.

#[local] Instance library : Transformers := {
  AutoConfig := unit;
  AutoModel := Z;
  AutoConfig_new := None;
  from_pretrained := fun name =>
    if String.eqb name "facebook/opt-350m" then Some 512 else None;
  AutoModel_new := fun _ => None;
  gradient_checkpointing_enable := fun model => Some model;
  word_embed_proj_dim := fun model => Some model
}.

End StubTransformers.

(* ================================================================== *)
(** * Properties *)

(** ** Coroutines and the loop *)

Section CoroutineFacts.
Context {Op Req Resp : Type}.

#[local] Abbreviation coro := (asyncio.coro Op Req Resp).
#[local] Abbreviation EventLoop := (asyncio.EventLoop Op Req Resp).

(** Driving [await c] followed by [f] is driving [c] and then, from the
    clock and log it leaves, driving [f] on its value. *)
Lemma drive_bind {A B : Type} (lp : EventLoop) (c : coro A) (f : A -> coro B) :
  forall now log,
    asyncio.drive lp (asyncio.bind c f) now log =
    let r := asyncio.drive lp c now log in
    match asyncio.outcome r with
    | Ok a => asyncio.drive lp (f a) (asyncio.clock r) (asyncio.dispatched r)
    | Exc e =>
        {| asyncio.outcome := Exc e;
           asyncio.clock := asyncio.clock r;
           asyncio.dispatched := asyncio.dispatched r |}
    end.
Proof.
  induction c as [a | e | call wait k IH]; intros now log; simpl.
  - reflexivity.
  - reflexivity.
  - destruct (asyncio.wait_for (asyncio.transport lp call) wait
                (asyncio.lateness lp)) as [r spent].
    apply IH.
Qed.

(** A coroutine that awaits [c] and returns [g] of its value runs to what
    a blocking caller computes from the run of [c]. *)
Lemma run_bind_return {A B : Type} (lp : EventLoop) (c : coro A) (g : A -> B) :
  asyncio.run_until_complete lp
    (asyncio.bind c (fun a => asyncio.Return (g a))) =
  asyncio.and_then (asyncio.run_until_complete lp c) (fun a => Ok (g a)).
Proof.
  unfold asyncio.run_until_complete, asyncio.and_then.
  rewrite drive_bind. cbv zeta.
  destruct (asyncio.drive lp c (asyncio.time lp) []) as [[a | e] clk log];
    reflexivity.
Qed.

(** The clock never runs backwards while a coroutine is driven. *)
Lemma wait_for_spent (b : asyncio.behaviour Resp) (timeout : Z) (late : N) :
  0 <= snd (asyncio.wait_for b timeout late).
Proof.
  unfold asyncio.wait_for.
  destruct b as [latency response | latency code | ];
    try destruct (latency <? timeout); simpl; lia.
Qed.

Lemma drive_clock {A : Type} (lp : EventLoop) (c : coro A) :
  forall now log, now <= asyncio.clock (asyncio.drive lp c now log).
Proof.
  induction c as [a | e | call wait k IH]; intros now log; simpl; try lia.
  pose proof (wait_for_spent (asyncio.transport lp call) wait
                (asyncio.lateness lp)) as Hspent.
  destruct (asyncio.wait_for (asyncio.transport lp call) wait
              (asyncio.lateness lp)) as [r spent]; simpl in Hspent.
  specialize (IH r (now + spent) (log ++ [call])%list). lia.
Qed.

(** Waiting on a silent transport ends with [TimeoutError], not before
    the deadline. *)
Lemma wait_for_silent (timeout : Z) (late : N) :
  asyncio.wait_for (@asyncio.NeverResponds Resp) timeout late =
  (Exc TimeoutError, Z.max 0 timeout + Z.of_N late).
Proof. reflexivity. Qed.

End CoroutineFacts.

(** ** C1: the blocking and the non-blocking entry points *)

(** C1.  For both facades, running the coroutine [async_forward] returns
    to completion on an event loop gives exactly what the blocking
    [forward] gives on that loop for the same arguments: the same
    descriptor or payload or the same exception, at the same clock, after
    the same invocations of the transport.  For text-to-image this holds
    for every [apply] and every value of [return_call]. *)
Theorem forward_async_forward_agree :
  (forall (B : Bittensor) (D : DendriteBase) (self : Dendrite) (text : unicode)
          (timeout : option Z) (return_call : option bool),
      asyncio.run_until_complete (loop self)
        (TextToImageDendrite.async_forward self text timeout return_call) =
      TextToImageDendrite.forward self text timeout return_call) /\
  (forall (B : Bittensor) event_loop (self : TextCausalLMDendrite.t)
          (text_inputs : Tensor) (timeout : option Z),
      asyncio.run_until_complete event_loop
        (TextCausalLMDendrite.async_forward self text_inputs timeout) =
      TextCausalLMDendrite.forward event_loop self text_inputs timeout).
Proof.
  split.
  - intros B D self text timeout return_call.
    unfold TextToImageDendrite.async_forward, TextToImageDendrite.forward.
    destruct (default true return_call); apply run_bind_return.
  - intros B event_loop self text_inputs timeout.
    unfold TextCausalLMDendrite.forward.
    destruct timeout as [t | ]; reflexivity.
Qed.

(** ** The text-to-image descriptor *)

Section DescriptorFacts.
Context `{Bittensor}.

Import TextToImageForwardCall.

(** The four reading methods return [self] as they found it. *)
Lemma readers_keep_self (self : t) :
  snd (get_callable self) = self /\
  snd (get_request_proto self) = self /\
  snd (get_inputs_shape self) = self /\
  snd (get_outputs_shape self) = self.
Proof. repeat split. Qed.

(** [apply_response_proto] assigns [image] and nothing else. *)
Lemma apply_response_proto_assigns
    (response_proto : proto.ForwardTextToImageResponse) (self : t) :
  let self' := snd (apply_response_proto response_proto self) in
  image self' = proto.image response_proto /\
  text self' = text self /\
  super self' = super self.
Proof. repeat split. Qed.

End DescriptorFacts.

(** C7.  A descriptor built from the empty string has input shape [[0]],
    and for every text, on a fresh descriptor or a used one,
    [get_inputs_shape] returns the one-dimensional shape holding the
    number of code points of the text and leaves the descriptor as it
    was; construction and the method are total, so neither can fail.
    The shape is [[0]] for the empty text only. *)
Theorem get_inputs_shape_text_length :
  forall (B : Bittensor) (dendrite : Dendrite) (timeout : option Z),
    fst (TextToImageForwardCall.get_inputs_shape
           (TextToImageForwardCall.__init__ dendrite (literal "") timeout)) =
      [0%nat] /\
    (forall text : unicode,
        fst (TextToImageForwardCall.get_inputs_shape
               (TextToImageForwardCall.__init__ dendrite text timeout)) =
        [List.length text]) /\
    (forall self : TextToImageForwardCall.t,
        TextToImageForwardCall.get_inputs_shape self =
        ([List.length (TextToImageForwardCall.text self)], self)) /\
    (forall self : TextToImageForwardCall.t,
        fst (TextToImageForwardCall.get_inputs_shape self) = [0%nat] <->
        TextToImageForwardCall.text self = []).
Proof.
  intros B dendrite timeout. repeat split.
  - unfold TextToImageForwardCall.get_inputs_shape. cbn [fst].
    intros Hshape. injection Hshape as Hlength.
    now apply length_zero_iff_nil.
  - intros Hempty. unfold TextToImageForwardCall.get_inputs_shape.
    cbn [fst]. now rewrite Hempty.
Qed.

(** One code point is one character, however many octets its encoding
    takes: the one-letter text e-acute has input shape [[1]]. *)
Example get_inputs_shape_counts_code_points :
  fst (TextToImageForwardCall.get_inputs_shape
         (TextToImageForwardCall.__init__ (H := Stub.package)
            "axon"%string [233%N] None)) = [1%nat].
Proof. reflexivity. Qed.

(** ** C9: requests *)

Section RequestFacts.
Context `{Bittensor}.

(** The invocations [TextCausalLMDendrite.forward] hands to the transport:
    none when the input cannot be encoded, one otherwise, whatever the
    transport then does. *)
Lemma causal_lm_dispatched event_loop (self : TextCausalLMDendrite.t)
    (text_inputs : Tensor) (timeout : option Z) :
  asyncio.dispatched
    (TextCausalLMDendrite.forward event_loop self text_inputs timeout) =
  match serialize (TextCausalLMDendrite._text_inputs_serializer_type self)
          text_inputs with
  | None => []
  | Some serialized_text =>
      [ {| asyncio.callable :=
             grpc.ForwardTextLastHiddenState (TextCausalLMDendrite.receptor self);
           asyncio.request :=
             TextCausalLMDendrite.build_request self serialized_text;
           asyncio.timeout := default __blocktime__ timeout;
           asyncio.metadata := TextCausalLMDendrite.call_metadata self |} ]
  end.
Proof.
  unfold TextCausalLMDendrite.forward, asyncio.run_until_complete,
    TextCausalLMDendrite.async_forward.
  cbn [default].
  destruct (serialize _ text_inputs) as [serialized_text | ]; [ | reflexivity].
  cbn [asyncio.drive].
  destruct (asyncio.wait_for _ _ _) as [[grpc_response | e] spent];
    [ | reflexivity].
  destruct (deserialize _ _); reflexivity.
Qed.

End RequestFacts.

(** C9.  [get_request_proto] returns a request that depends on the text
    of the descriptor alone and returns the descriptor unchanged; the
    requests the causal-LM facade puts on the wire depend on the text
    inputs and the two serializer types alone, not on the wallet, the
    endpoint, the timeout or the transport. *)
Theorem build_request_pure :
  forall B : Bittensor,
    (forall self : TextToImageForwardCall.t,
        snd (TextToImageForwardCall.get_request_proto self) = self) /\
    (forall a b : TextToImageForwardCall.t,
        TextToImageForwardCall.text a = TextToImageForwardCall.text b ->
        fst (TextToImageForwardCall.get_request_proto a) =
        fst (TextToImageForwardCall.get_request_proto b)) /\
    (forall loop1 loop2 (a b : TextCausalLMDendrite.t) (text_inputs : Tensor)
            (timeout1 timeout2 : option Z),
        TextCausalLMDendrite._text_inputs_serializer_type a =
        TextCausalLMDendrite._text_inputs_serializer_type b ->
        TextCausalLMDendrite._hidden_states_serializer_type a =
        TextCausalLMDendrite._hidden_states_serializer_type b ->
        List.map (@asyncio.request _ _)
          (asyncio.dispatched
             (TextCausalLMDendrite.forward loop1 a text_inputs timeout1)) =
        List.map (@asyncio.request _ _)
          (asyncio.dispatched
             (TextCausalLMDendrite.forward loop2 b text_inputs timeout2))).
Proof.
  intros B. split; [ | split].
  - intros self. reflexivity.
  - intros a b Htext. unfold TextToImageForwardCall.get_request_proto.
    simpl. now rewrite Htext.
  - intros loop1 loop2 a b text_inputs timeout1 timeout2 Htext Hhidden.
    rewrite !causal_lm_dispatched, <- Htext.
    destruct (serialize _ text_inputs) as [serialized_text | ];
      [ | reflexivity].
    simpl. unfold TextCausalLMDendrite.build_request.
    now rewrite Htext, Hhidden.
Qed.

(** Two descriptors with the same text and different timeouts and
    images, and two causal-LM clients with different wallets on
    different transports, build the same requests. *)
Lemma build_request_pure_witness :
  fst (TextToImageForwardCall.get_request_proto
         (TextToImageForwardCall.__init__ (H := Stub.package)
            "axon-1"%string (literal "a cat") (Some 3))) =
  fst (TextToImageForwardCall.get_request_proto
         (snd (TextToImageForwardCall.apply_response_proto Stub.picture
                 (TextToImageForwardCall.__init__ (H := Stub.package)
                    "axon-2"%string (literal "a cat") None)))) /\
  List.map (@asyncio.request _ _)
    (asyncio.dispatched
       (TextCausalLMDendrite.forward Stub.silent Stub.lm [1; 2]%nat None)) =
  List.map (@asyncio.request _ _)
    (asyncio.dispatched
       (TextCausalLMDendrite.forward (Stub.rejecting 14)
          (TextCausalLMDendrite.__init__ (H := Stub.package)
             (inl "10.0.0.8"%string) (Some "cold"%string) None None)
          [1; 2]%nat (Some 4))).
Proof.
  destruct (build_request_pure Stub.package) as [_ [Htext Hlm]].
  split.
  - apply Htext. reflexivity.
  - apply Hlm; reflexivity.
Defined.

(** ** The causal-LM facade *)

(** C10.  The constructor keeps a wallet in [self.wallet] and an endpoint
    in [self.endpoint] whatever it is given: the wallet passed, or
    [bittensor.wallet()] when it is [None]; the endpoint passed, or
    [bittensor.endpoint.from_tensor] of the tensor passed; and the
    receptor is built from these two, not from the raw arguments. *)
Theorem init_normalizes_arguments :
  forall (B : Bittensor) (endpoint : Endpoint + Tensor) (wallet : option Wallet)
         (text_serializer hidden_serializer : option Serializer),
    let self :=
      TextCausalLMDendrite.__init__ endpoint wallet
        text_serializer hidden_serializer in
    TextCausalLMDendrite.wallet self =
      default (bittensor_wallet tt) wallet /\
    TextCausalLMDendrite.endpoint self =
      match endpoint with
      | inl given => given
      | inr tensor => endpoint_from_tensor tensor
      end /\
    TextCausalLMDendrite.receptor self =
      bittensor_receptor (TextCausalLMDendrite.endpoint self)
        (TextCausalLMDendrite.wallet self) /\
    TextCausalLMDendrite._text_inputs_serializer_type self =
      default MSGPACK text_serializer /\
    TextCausalLMDendrite._hidden_states_serializer_type self =
      default MSGPACK hidden_serializer.
Proof.
  intros B endpoint wallet text_serializer hidden_serializer self.
  subst self. unfold TextCausalLMDendrite.__init__.
  destruct endpoint, wallet; repeat split.
Qed.

(** C8.  Every invocation the causal-LM facade hands to the transport
    carries exactly three metadata pairs, in this order: the header tag,
    the signature of the receptor and the version number in decimal; and
    there is one such invocation whenever the input could be encoded. *)
Theorem metadata_three_pairs :
  forall (B : Bittensor) event_loop (self : TextCausalLMDendrite.t)
         (text_inputs : Tensor) (timeout : option Z),
    let calls :=
      asyncio.dispatched
        (TextCausalLMDendrite.forward event_loop self text_inputs timeout) in
    Forall
      (fun call =>
         asyncio.metadata call =
         [ ("rpc-auth-header", "Bittensor");
           ("bittensor-signature",
            receptor_sign (TextCausalLMDendrite.receptor self));
           ("bittensor-version", str __version_as_int__) ]%string)
      calls /\
    List.length calls =
      match serialize (TextCausalLMDendrite._text_inputs_serializer_type self)
              text_inputs with
      | Some _ => 1%nat
      | None => 0%nat
      end.
Proof.
  intros B event_loop self text_inputs timeout calls. subst calls.
  rewrite causal_lm_dispatched.
  destruct (serialize _ text_inputs) as [serialized_text | ]; split;
    try reflexivity; repeat constructor.
Qed.

(** The version number is rendered as Python's [str] renders an [int]. *)
Example str_renders_decimal :
  str 507 = "507"%string /\ str 0 = "0"%string /\ str (-12) = "-12"%string.
Proof. repeat split. Qed.

(** C3.  When the transport never answers, a causal-LM call whose input
    could be encoded ends with [asyncio.TimeoutError] and no hidden
    states, and the loop's clock has by then advanced by at least the
    timeout of the call. *)
Theorem silent_transport_times_out :
  forall (B : Bittensor) event_loop (self : TextCausalLMDendrite.t)
         (text_inputs : Tensor) (timeout : option Z) (serialized_text : bytes),
    (forall call, asyncio.transport event_loop call = asyncio.NeverResponds) ->
    serialize (TextCausalLMDendrite._text_inputs_serializer_type self)
      text_inputs = Some serialized_text ->
    let run :=
      TextCausalLMDendrite.forward event_loop self text_inputs timeout in
    asyncio.outcome run = Exc TimeoutError /\
    asyncio.time event_loop + default __blocktime__ timeout <=
      asyncio.clock run.
Proof.
  intros B event_loop self text_inputs timeout serialized_text Hsilent Hser run.
  subst run.
  unfold TextCausalLMDendrite.forward, asyncio.run_until_complete,
    TextCausalLMDendrite.async_forward.
  cbn [default]. rewrite Hser. cbn [asyncio.drive].
  rewrite Hsilent, wait_for_silent. cbn [asyncio.drive asyncio.outcome asyncio.clock].
  split; [reflexivity | lia].
Qed.

Lemma silent_transport_times_out_witness :
  asyncio.outcome
    (TextCausalLMDendrite.forward Stub.silent Stub.lm [1; 2; 3]%nat (Some 5)) =
    Exc TimeoutError /\
  100 + 5 <=
    asyncio.clock
      (TextCausalLMDendrite.forward Stub.silent Stub.lm [1; 2; 3]%nat (Some 5)).
Proof.
  apply (@silent_transport_times_out Stub.package Stub.silent Stub.lm
           [1; 2; 3]%nat (Some 5) [x01; x02; x03]).
  - intros call. reflexivity.
  - reflexivity.
Defined.




(** ** The endpoint client on any descriptor *)

Section GenericClient.
Context `{Bittensor} {C Op Req Resp : Type}
        `{!EndpointClient.CallDescriptor C Op Req Resp}.

(** An answer that arrives in time and that [apply_response] refuses
    ends the call Failed with [MalformedResponseError]; the descriptor
    returned is the waiting one, without what the answer carried. *)
Lemma apply_undecodable lp (self : Dendrite) (call : C) (request : Req)
    (latency : Z) (response : Resp) (e : exn) :
  EndpointClient.build_request (EndpointClient.enter Serializing None call) =
    Ok request ->
  (forall inv, asyncio.transport lp inv = asyncio.Responds latency response) ->
  latency < DendriteCall.timeout (EndpointClient.base (EndpointClient.awaiting call)) ->
  EndpointClient.apply_response response (EndpointClient.awaiting call) = Exc e ->
  asyncio.outcome
    (asyncio.run_until_complete lp (EndpointClient.apply self call)) =
  Ok (EndpointClient.enter Failed (Some MalformedResponseError)
        (EndpointClient.awaiting call)).
Proof.
  intros Hrequest Hanswer Hlatency Hrefused.
  unfold asyncio.run_until_complete, EndpointClient.apply.
  rewrite Hrequest. cbn [asyncio.drive].
  rewrite Hanswer. unfold asyncio.wait_for.
  fold (EndpointClient.awaiting call).
  apply Z.ltb_lt in Hlatency. rewrite Hlatency.
  cbn [asyncio.drive]. fold (EndpointClient.awaiting call). rewrite Hrefused. reflexivity.
Qed.

End GenericClient.

(** ** The endpoint client on text-to-image calls *)

Section ClientFacts.
Context `{Bittensor}.

Import TextToImageForwardCall.

(** A run of [apply] on a text-to-image call: one invocation, one wait,
    and the descriptor settled from what the wait gave. *)
Lemma apply_run lp (self : Dendrite) (call : t) :
  asyncio.run_until_complete lp (EndpointClient.apply self call) =
  let waited :=
    asyncio.wait_for (asyncio.transport lp (invocation self call))
      (DendriteCall.timeout (super call)) (asyncio.lateness lp) in
  {| asyncio.outcome := Ok (settled call (fst waited));
     asyncio.clock := asyncio.time lp + snd waited;
     asyncio.dispatched := [invocation self call] |}.
Proof.
  unfold asyncio.run_until_complete, EndpointClient.apply.
  cbn -[asyncio.wait_for].
  fold (invocation self call).
  destruct (asyncio.wait_for _ _ _) as [[response | e] spent].
  - reflexivity.
  - destruct e; reflexivity.
Qed.

(** With a silent transport the call ends TimedOut, not before its
    timeout, with the timeout error attached and no image. *)
Lemma apply_silent lp (self : Dendrite) (call : t) :
  (forall inv, asyncio.transport lp inv = asyncio.NeverResponds) ->
  let run := asyncio.run_until_complete lp (EndpointClient.apply self call) in
  asyncio.outcome run = Ok (settled call (Exc TimeoutError)) /\
  asyncio.time lp + DendriteCall.timeout (super call) <= asyncio.clock run.
Proof.
  intros Hsilent run. subst run. rewrite apply_run, Hsilent, wait_for_silent.
  simpl. split; [reflexivity | lia].
Qed.

(** Under the endpoint client a text-to-image call whose transport
    answers in time ends Completed with no error, whatever the answer
    holds: no run of it ends with [MalformedResponseError]. *)
Lemma apply_accepts_every_response lp (self : Dendrite) (call : t) :
  let final :=
    settled call
      (fst (asyncio.wait_for (asyncio.transport lp (invocation self call))
              (DendriteCall.timeout (super call)) (asyncio.lateness lp))) in
  asyncio.outcome
    (asyncio.run_until_complete lp (EndpointClient.apply self call)) =
    Ok final /\
  DendriteCall.error (super final) <> Some MalformedResponseError /\
  (forall latency response,
      asyncio.transport lp (invocation self call) =
        asyncio.Responds latency response ->
      latency < DendriteCall.timeout (super call) ->
      DendriteCall.state (super final) = Completed /\
      DendriteCall.error (super final) = None /\
      image final = proto.image response).
Proof.
  intros final. subst final. rewrite apply_run. cbv zeta.
  split; [reflexivity | ]. split.
  - unfold asyncio.wait_for.
    destruct (asyncio.transport lp (invocation self call))
      as [latency response | latency code | ];
      try destruct (latency <? DendriteCall.timeout (super call));
      simpl; discriminate.
  - intros latency response Hanswer Hlatency.
    rewrite Hanswer. unfold asyncio.wait_for.
    apply Z.ltb_lt in Hlatency. rewrite Hlatency. repeat split.
Qed.

End ClientFacts.

(** C2.  A fresh descriptor has the empty image; the reading methods
    leave the image alone and [apply_response_proto] sets it to the image
    of the response.  A call driven by the endpoint client always ends
    Completed, Failed or TimedOut: Completed only when the transport
    answered the call's one invocation, and then the image is that of
    the answer; Failed or TimedOut with the error attached and the image
    still empty. *)
Theorem image_unset_until_success :
  forall (B : Bittensor) lp (dendrite : Dendrite) (text : unicode)
         (timeout : option Z),
    let call := TextToImageForwardCall.__init__ dendrite text timeout in
    let run :=
      asyncio.run_until_complete lp (EndpointClient.apply dendrite call) in
    TextToImageForwardCall.image call = [] /\
    (forall self : TextToImageForwardCall.t,
        let unchanged (after : TextToImageForwardCall.t) :=
          TextToImageForwardCall.image after =
          TextToImageForwardCall.image self in
        unchanged (snd (TextToImageForwardCall.get_callable self)) /\
        unchanged (snd (TextToImageForwardCall.get_request_proto self)) /\
        unchanged (snd (TextToImageForwardCall.get_inputs_shape self)) /\
        unchanged (snd (TextToImageForwardCall.get_outputs_shape self))) /\
    (forall response (self : TextToImageForwardCall.t),
        TextToImageForwardCall.image
          (snd (TextToImageForwardCall.apply_response_proto response self)) =
        proto.image response) /\
    exists final : TextToImageForwardCall.t,
      asyncio.outcome run = Ok final /\
      match DendriteCall.state (TextToImageForwardCall.super final) with
      | Completed =>
          exists latency response,
            List.map (asyncio.transport lp) (asyncio.dispatched run) =
              [asyncio.Responds latency response] /\
            TextToImageForwardCall.image final = proto.image response /\
            DendriteCall.error (TextToImageForwardCall.super final) = None
      | Failed | TimedOut =>
          TextToImageForwardCall.image final = [] /\
          exists e,
            DendriteCall.error (TextToImageForwardCall.super final) = Some e
      | _ => False
      end.
Proof.
  intros B lp dendrite text timeout call run.
  split; [reflexivity | ].
  split; [intros self; repeat split | ].
  split; [reflexivity | ].
  subst run. rewrite apply_run. cbv zeta.
  eexists. split; [reflexivity | ].
  cbn [asyncio.dispatched List.map].
  unfold asyncio.wait_for.
  destruct (asyncio.transport lp (invocation dendrite call))
    as [latency response | latency code | ].
  - destruct (latency <? DendriteCall.timeout (TextToImageForwardCall.super call)).
    + simpl. exists latency, response. repeat split.
    + simpl. split; [reflexivity | eexists; reflexivity].
  - destruct (latency <? DendriteCall.timeout (TextToImageForwardCall.super call));
      simpl; (split; [reflexivity | eexists; reflexivity]).
  - simpl. split; [reflexivity | eexists; reflexivity].
Qed.

(** C5 as stated fails: on a transport that never answers the call ends
    TimedOut with the error attached to the descriptor, and the
    payload-only shape of both entry points returns the empty image, not
    the error. *)
Lemma payload_only_returns_empty_image :
  let D := @client_dendrite Stub.package (fun _ => Stub.silent) in
  let call :=
    TextToImageForwardCall.__init__ (H := Stub.package)
      "axon"%string (literal "a cat") (Some 5) in
  (exists final,
      asyncio.outcome
        (asyncio.run_until_complete Stub.silent
           (@apply Stub.package D "axon"%string call)) = Ok final /\
      DendriteCall.state (TextToImageForwardCall.super final) = TimedOut /\
      DendriteCall.error (TextToImageForwardCall.super final) =
        Some TimeoutError) /\
  asyncio.outcome
    (@TextToImageDendrite.forward Stub.package D
       "axon"%string (literal "a cat") (Some 5) (Some false)) = Ok (inr []) /\
  asyncio.outcome
    (asyncio.run_until_complete Stub.silent
       (@TextToImageDendrite.async_forward Stub.package D
          "axon"%string (literal "a cat") (Some 5) (Some false))) = Ok (inr []) /\
  (forall e,
      asyncio.outcome
        (@TextToImageDendrite.forward Stub.package D
           "axon"%string (literal "a cat") (Some 5) (Some false)) <> Exc e).
Proof.
  cbv zeta. split; [ | split; [ | split]].
  - eexists. split; [reflexivity | split; reflexivity].
  - reflexivity.
  - reflexivity.
  - intros e. discriminate.
Qed.

(** C5, amended.  With [return_call = False] the text-to-image entry
    points return the image of whatever descriptor [apply] returns, in
    whatever state it is, and raise only what [apply] itself raises.  The
    causal-LM facade raises every failure of its call: of the encoding,
    of the wait (the timeout and the transport's errors) and of the
    decoding. *)
Theorem payload_only_error_surfacing :
  forall B : Bittensor,
    (forall (D : DendriteBase) (self : Dendrite) (text : unicode)
            (timeout : option Z),
        let applied :=
          asyncio.run_until_complete (loop self)
            (apply self
               (TextToImageForwardCall.__init__ self text
                  (Some (default __blocktime__ timeout)))) in
        let payload :=
          match asyncio.outcome applied with
          | Ok response_call =>
              Ok (inr (TextToImageForwardCall.image response_call))
          | Exc e => Exc e
          end in
        asyncio.outcome
          (TextToImageDendrite.forward self text timeout (Some false)) =
          payload /\
        asyncio.outcome
          (asyncio.run_until_complete (loop self)
             (TextToImageDendrite.async_forward self text timeout
                (Some false))) = payload) /\
    (forall event_loop (self : TextCausalLMDendrite.t) (text_inputs : Tensor)
            (timeout : option Z),
        let run :=
          TextCausalLMDendrite.forward event_loop self text_inputs timeout in
        let waits :=
          List.map
            (fun call =>
               fst (asyncio.wait_for (asyncio.transport event_loop call)
                      (default __blocktime__ timeout)
                      (asyncio.lateness event_loop)))
            (asyncio.dispatched run) in
        let decode :=
          deserialize (TextCausalLMDendrite._hidden_states_serializer_type self) in
        (serialize (TextCausalLMDendrite._text_inputs_serializer_type self)
           text_inputs = None ->
         asyncio.outcome run = Exc SerializationError) /\
        (forall e, In (Exc e) waits -> asyncio.outcome run = Exc e) /\
        (forall response,
            In (Ok response) waits ->
            decode (proto.hidden_states response) = None ->
            asyncio.outcome run = Exc MalformedResponseError) /\
        (forall hidden_states,
            asyncio.outcome run = Ok hidden_states ->
            exists response,
              In (Ok response) waits /\
              decode (proto.hidden_states response) = Some hidden_states)).
Proof.
  intros B. split.
  - intros D self text timeout applied payload.
    subst payload applied.
    unfold TextToImageDendrite.async_forward. cbn [default].
    rewrite run_bind_return.
    unfold TextToImageDendrite.forward, asyncio.and_then. simpl.
    destruct (asyncio.outcome _); split; reflexivity.
  - intros event_loop self text_inputs timeout run waits decode.
    subst waits run decode.
    rewrite causal_lm_dispatched.
    unfold TextCausalLMDendrite.forward, asyncio.run_until_complete,
      TextCausalLMDendrite.async_forward.
    cbn [default].
    destruct (serialize _ text_inputs) as [serialized_text | ].
    + cbn [asyncio.drive List.map].
      destruct (asyncio.wait_for _ _ _) as [[grpc_response | e] spent];
        cbn [fst asyncio.drive asyncio.outcome].
      * destruct (deserialize _ (proto.hidden_states grpc_response))
          as [hidden | ] eqn:Hdecode; cbn [asyncio.outcome].
        -- repeat split; try discriminate.
           ++ intros e [Hin | []]. discriminate.
           ++ intros response [Hin | []]. injection Hin as <-. congruence.
           ++ intros hidden_states Hok. injection Hok as <-.
              exists grpc_response. split; [now left | assumption].
        -- repeat split; try discriminate.
           intros e [Hin | []]. discriminate.
      * repeat split; try discriminate.
        -- intros e' [Hin | []]. injection Hin as <-. reflexivity.
        -- intros response [Hin | []]. discriminate.
    + cbn [asyncio.drive asyncio.outcome List.map].
      repeat split; try discriminate; intros ? [].
Qed.

(** On the silent transport the wait of the causal-LM call ends with the
    timeout, and [forward] raises it. *)
Lemma payload_only_error_surfacing_witness :
  asyncio.outcome
    (TextCausalLMDendrite.forward Stub.silent Stub.lm [1; 2; 3]%nat (Some 5)) =
  Exc TimeoutError.
Proof.
  destruct (payload_only_error_surfacing Stub.package) as [_ Hlm].
  destruct (Hlm Stub.silent Stub.lm [1; 2; 3]%nat (Some 5))
    as [_ [Hwait _]].
  apply Hwait. simpl. left. reflexivity.
Defined.

(* ================================================================== *)
(** * Further properties *)

(** ** commands/root.py: [check_config] *)

Section CheckConfig.
Context `{Defaults}.

Import RootRegisterCommand.

(** [check_config] on every combination of flags and every terminal
    with at most three answers ahead; a step of the proofs below. *)
Ltac run_check_config :=
  intros [given quiet [network] [name hotkey]] [answers asked];
  unfold check_config, missing, seq, unless_given, ask, rich.Prompt_ask,
    set_subtensor_network, set_wallet_name, set_wallet_hotkey, str_of_str;
  destruct quiet;
  destruct (given "subtensor.network"%string) eqn:Hnetwork;
  destruct (given "wallet.name"%string) eqn:Hname;
  destruct (given "wallet.hotkey"%string) eqn:Hhotkey;
  destruct answers as [ | first [ | second [ | third rest]]];
  repeat (progress (cbn; rewrite ?Hnetwork, ?Hname, ?Hhotkey)).

(** X1.  Whatever the terminal holds, even when a prompt raises half
    way, [check_config] leaves the configuration with the answers read,
    in the order given, assigned to the keys that were missing, in the
    order network, wallet name, hotkey, and with nothing else changed. *)
Theorem check_config_assigns_answers_in_order :
  forall (c : config.t) (console : rich.Console),
    fst (snd (check_config (c, console))) =
    fold_left assign (combine (missing c) (rich.pending console)) c.
Proof. run_check_config; reflexivity. Qed.

(** X2.  [check_config] asks the questions of the missing keys and no
    other, in order, one answer each, stopping at the first it gets no
    answer to; it returns when every missing key was answered and raises
    otherwise. *)
Theorem check_config_asks_missing_keys :
  forall (c : config.t) (console : rich.Console),
    let after := check_config (c, console) in
    rich.shown (snd (snd after)) =
      (rich.shown console ++
       List.map question
         (firstn (S (List.length (rich.pending console))) (missing c)))%list /\
    rich.pending (snd (snd after)) =
      skipn (List.length (missing c)) (rich.pending console) /\
    fst after =
      if (List.length (missing c) <=? List.length (rich.pending console))%nat
      then Some tt else None.
Proof.
  run_check_config; rewrite <- ?app_assoc, ?app_nil_r; repeat split.
Qed.

(** X3.  Whatever is typed and whether or not a prompt raises,
    [check_config] never changes [no_prompt] or what [is_set] answers,
    and never replaces a value given on the command line. *)
Theorem check_config_keeps_given_values :
  forall (c : config.t) (console : rich.Console),
    let c' := fst (snd (check_config (c, console))) in
    config.no_prompt c' = config.no_prompt c /\
    (forall name, config.is_set c' name = config.is_set c name) /\
    (forall k : key,
        config.is_set c (dotted k) = true -> value k c' = value k c).
Proof.
  run_check_config; repeat split; intros k; destruct k; cbn;
    intros Hgiven; congruence.
Qed.

(** X4.  With [no_prompt] the command is silent: [check_config] asks
    nothing and returns the configuration and the terminal as they were,
    and [run] registers with [prompt = False]. *)
Theorem no_prompt_asks_nothing :
  forall (c : config.t) (console : rich.Console),
    config.no_prompt c = true ->
    check_config (c, console) = (Some tt, (c, console)) /\
    with_prompt (run {| cli_config := c |}) = false.
Proof.
  run_check_config; intros Hquiet; try discriminate; split; reflexivity.
Qed.

End CheckConfig.

(** The wallet name came from the command line: the two answers typed go
    to the network and the hotkey, and the name stays. *)
Lemma check_config_keeps_given_values_witness :
  RootRegisterCommand.value RootRegisterCommand.WalletName
    (fst (snd (RootRegisterCommand.check_config (H := StubTerminal.defaults)
                 (StubTerminal.named_wallet false,
                  StubTerminal.typed ["test"; "hot"]%string)))) =
  "cold"%string.
Proof.
  destruct (@check_config_keeps_given_values StubTerminal.defaults
              (StubTerminal.named_wallet false)
              (StubTerminal.typed ["test"; "hot"]%string))
    as [_ [_ Hkept]].
  apply (Hkept RootRegisterCommand.WalletName). reflexivity.
Defined.

Lemma no_prompt_asks_nothing_witness :
  RootRegisterCommand.check_config (H := StubTerminal.defaults)
    (StubTerminal.named_wallet true, StubTerminal.typed ["test"]%string) =
  (Some tt, (StubTerminal.named_wallet true, StubTerminal.typed ["test"]%string)) /\
  RootRegisterCommand.with_prompt
    (RootRegisterCommand.run
       {| RootRegisterCommand.cli_config := StubTerminal.named_wallet true |}) =
  false.
Proof.
  apply (@no_prompt_asks_nothing StubTerminal.defaults
           (StubTerminal.named_wallet true)
           (StubTerminal.typed ["test"]%string)).
  reflexivity.
Defined.

(** ** text_to_image/dendrite.py: call shapes and shapes of the output *)

(** X5.  For every [apply], the two call shapes of
    [TextToImageDendrite.forward] are one call seen twice: leaving
    [return_call] out is passing [True], and the payload-only shape
    returns the [image] of the descriptor the full shape returns, raises
    what it raises, at the same clock and after the same invocations. *)
Theorem payload_is_image_of_returned_call :
  forall (B : Bittensor) (D : DendriteBase) (self : Dendrite) (text : unicode)
         (timeout : option Z),
    let full := TextToImageDendrite.forward self text timeout (Some true) in
    TextToImageDendrite.forward self text timeout None = full /\
    TextToImageDendrite.forward self text timeout (Some false) =
    asyncio.and_then full
      (fun returned =>
         match returned with
         | inl response_call =>
             Ok (inr (TextToImageForwardCall.image response_call))
         | inr payload => Ok (inr payload)
         end) /\
    (forall payload, asyncio.outcome full <> Ok (inr payload)).
Proof.
  intros B D self text timeout full. subst full.
  unfold TextToImageDendrite.forward, asyncio.and_then. cbn [default].
  cbn [asyncio.outcome asyncio.clock asyncio.dispatched].
  destruct (asyncio.run_until_complete _ _) as [[response_call | e] clk log];
    cbn [asyncio.outcome asyncio.clock asyncio.dispatched];
    repeat split; intros payload; discriminate.
Qed.

(** X6.  The output shape follows the last response: it is [[0]] on a
    fresh descriptor and the length of the response's image after
    [apply_response_proto]; a second response replaces the first; and a
    response changes neither the request, the callable nor the input
    shape of the descriptor. *)
Theorem output_shape_follows_response :
  forall (B : Bittensor) (dendrite : Dendrite) (text : unicode)
         (timeout : option Z)
         (first second : proto.ForwardTextToImageResponse)
         (self : TextToImageForwardCall.t),
    let absorb response call :=
      snd (TextToImageForwardCall.apply_response_proto response call) in
    fst (TextToImageForwardCall.get_outputs_shape
           (TextToImageForwardCall.__init__ dendrite text timeout)) = [0%nat] /\
    fst (TextToImageForwardCall.get_outputs_shape (absorb first self)) =
      [List.length (proto.image first)] /\
    absorb second (absorb first self) = absorb second self /\
    fst (TextToImageForwardCall.get_request_proto (absorb first self)) =
      fst (TextToImageForwardCall.get_request_proto self) /\
    fst (TextToImageForwardCall.get_callable (absorb first self)) =
      fst (TextToImageForwardCall.get_callable self) /\
    fst (TextToImageForwardCall.get_inputs_shape (absorb first self)) =
      fst (TextToImageForwardCall.get_inputs_shape self).
Proof.
  intros B dendrite text timeout first second self absorb.
  repeat split.
Qed.

(** ** text_causal_lm/dendrite.py: the ways a call goes *)

(** X7.  A client built by [__init__] encodes the input with its text
    serializer and decodes the answer with its hidden-state serializer,
    [MSGPACK] for either when left out: when the first encodes the input,
    the transport answers the request carrying that encoding and the two
    serializer types in time, and the second decodes the answer,
    [forward] returns the decoded hidden states when the answer
    arrives. *)
Theorem forward_returns_decoded_states :
  forall (B : Bittensor) event_loop (endpoint : Endpoint + Tensor)
         (wallet : option Wallet) (text_serializer hidden_serializer
           : option Serializer)
         (text_inputs : Tensor) (timeout : option Z)
         (serialized_text : bytes) (latency : Z)
         (response : proto.ForwardTextCausalLMResponse)
         (hidden_states : Tensor),
    let self :=
      TextCausalLMDendrite.__init__ endpoint wallet
        text_serializer hidden_serializer in
    serialize (default MSGPACK text_serializer) text_inputs =
      Some serialized_text ->
    (forall call,
        asyncio.request call =
          {| proto.serialized_text_inputs := serialized_text;
             proto.text_inputs_serializer_type :=
               default MSGPACK text_serializer;
             proto.hidden_states_serializer_type :=
               default MSGPACK hidden_serializer |} ->
        asyncio.transport event_loop call =
          asyncio.Responds latency response) ->
    latency < default __blocktime__ timeout ->
    deserialize (default MSGPACK hidden_serializer)
      (proto.hidden_states response) = Some hidden_states ->
    let run :=
      TextCausalLMDendrite.forward event_loop self text_inputs timeout in
    asyncio.outcome run = Ok hidden_states /\
    asyncio.clock run = asyncio.time event_loop + Z.max 0 latency.
Proof.
  intros B event_loop endpoint wallet text_serializer hidden_serializer
    text_inputs timeout serialized_text latency response hidden_states self
    Hencode Hanswer Hlatency Hdecode run.
  subst run self.
  unfold TextCausalLMDendrite.forward, asyncio.run_until_complete,
    TextCausalLMDendrite.async_forward, TextCausalLMDendrite.__init__.
  cbn [default TextCausalLMDendrite._text_inputs_serializer_type
       TextCausalLMDendrite._hidden_states_serializer_type] in *.
  rewrite Hencode. cbn [asyncio.drive].
  rewrite Hanswer by reflexivity.
  unfold asyncio.wait_for. apply Z.ltb_lt in Hlatency. rewrite Hlatency.
  cbn [asyncio.drive]. rewrite Hdecode. split; reflexivity.
Qed.

Lemma forward_returns_decoded_states_witness :
  asyncio.outcome
    (TextCausalLMDendrite.forward
       (Stub.answering {| proto.hidden_states := [x04; x02] |})
       Stub.lm [1; 2; 3]%nat (Some 5)) = Ok [4; 2]%nat /\
  asyncio.clock
    (TextCausalLMDendrite.forward
       (Stub.answering {| proto.hidden_states := [x04; x02] |})
       Stub.lm [1; 2; 3]%nat (Some 5)) = 100 + Z.max 0 3.
Proof.
  apply (@forward_returns_decoded_states Stub.package
           (Stub.answering {| proto.hidden_states := [x04; x02] |})
           (inr [10; 0; 0; 7]%nat) None None None
           [1; 2; 3]%nat (Some 5) [x01; x02; x03] 3
           {| proto.hidden_states := [x04; x02] |} [4; 2]%nat).
  - reflexivity.
  - intros call Hrequest. reflexivity.
  - simpl. lia.
  - reflexivity.
Defined.

(** X8.  An input the text serializer refuses never reaches the
    transport: [forward] raises at once, with no invocation made and the
    clock where it was. *)
Theorem unencodable_input_never_dispatched :
  forall (B : Bittensor) event_loop (self : TextCausalLMDendrite.t)
         (text_inputs : Tensor) (timeout : option Z),
    serialize (TextCausalLMDendrite._text_inputs_serializer_type self)
      text_inputs = None ->
    TextCausalLMDendrite.forward event_loop self text_inputs timeout =
    {| asyncio.outcome := Exc SerializationError;
       asyncio.clock := asyncio.time event_loop;
       asyncio.dispatched := [] |}.
Proof.
  intros B event_loop self text_inputs timeout Hencode.
  unfold TextCausalLMDendrite.forward, asyncio.run_until_complete,
    TextCausalLMDendrite.async_forward.
  cbn [default]. rewrite Hencode. reflexivity.
Qed.

(** The stub encoder keeps one octet per number and refuses 300. *)
Lemma unencodable_input_never_dispatched_witness :
  TextCausalLMDendrite.forward
    (Stub.answering {| proto.hidden_states := [x04; x02] |})
    Stub.lm [1; 300]%nat None =
  {| asyncio.outcome := Exc SerializationError;
     asyncio.clock := 100;
     asyncio.dispatched := [] |}.
Proof.
  apply (@unencodable_input_never_dispatched Stub.package
           (Stub.answering {| proto.hidden_states := [x04; x02] |})
           Stub.lm [1; 300]%nat None).
  reflexivity.
Defined.

(** ** coati/models/auto/critic.py *)

(** X10.  When [AutoCritic.__init__] gets as far as [Critic.__init__],
    the value head it hands over takes vectors of the
    [word_embed_proj_dim] of the very model it hands over, read after
    gradient checkpointing was switched on when asked for, and gives one
    number.  It raises when the pretrained name is refused, and when
    neither name nor configuration is given and [AutoConfig()] raises; a
    configuration passed next to a name plays no part. *)
Theorem value_head_fits_model :
  forall (T : Transformers) (pretrained : option string)
         (config other : option AutoConfig) (checkpoint : option bool)
         (lora_rank : option Z) (lora_train_bias : option string),
    (forall critic,
        AutoCritic.__init__ pretrained config checkpoint lora_rank
          lora_train_bias = Some critic ->
        word_embed_proj_dim (AutoCritic.model critic) =
          Some (AutoCritic.in_features (AutoCritic.value_head critic)) /\
        AutoCritic.out_features (AutoCritic.value_head critic) = 1) /\
    (forall named : string,
        AutoCritic.__init__ (Some named) other checkpoint lora_rank
          lora_train_bias =
        AutoCritic.__init__ (Some named) config checkpoint lora_rank
          lora_train_bias) /\
    (forall named : string,
        from_pretrained named = None ->
        AutoCritic.__init__ (Some named) config checkpoint lora_rank
          lora_train_bias = None) /\
    (AutoConfig_new = None ->
     AutoCritic.__init__ None None checkpoint lora_rank lora_train_bias =
     None).
Proof.
  intros T pretrained config other checkpoint lora_rank lora_train_bias.
  unfold AutoCritic.__init__, AutoCritic.and_then.
  split; [ | split; [reflexivity | split]].
  - intros critic Hbuilt.
    destruct (match pretrained with
              | Some named => from_pretrained named
              | None => _
              end) as [loaded | ]; [ | discriminate].
    destruct (if default false checkpoint
              then gradient_checkpointing_enable loaded
              else Some loaded) as [model | ]; [ | discriminate].
    destruct (word_embed_proj_dim model) as [dim | ] eqn:Hdim;
      [ | discriminate].
    injection Hbuilt as <-. cbn. split; [assumption | reflexivity].
  - intros named Hrefused. now rewrite Hrefused.
  - intros Hrefused. now rewrite Hrefused.
Qed.

(** On the stub library the critic of the known checkpoint, with
    checkpointing on, has a head of 512 inputs; without a name the
    constructor raises. *)
Lemma value_head_fits_model_witness :
  let critic :=
    {| AutoCritic.model := 512 : @AutoModel StubTransformers.library;
       AutoCritic.value_head :=
         {| AutoCritic.in_features := 512; AutoCritic.out_features := 1 |};
       AutoCritic.lora_rank := 0;
       AutoCritic.lora_train_bias := "none" |} in
  (@word_embed_proj_dim StubTransformers.library (AutoCritic.model critic) =
     Some (AutoCritic.in_features (AutoCritic.value_head critic)) /\
   AutoCritic.out_features (AutoCritic.value_head critic) = 1) /\
  AutoCritic.__init__ (H := StubTransformers.library)
    None None (Some true) None None = None.
Proof.
  cbv zeta.
  destruct (@value_head_fits_model StubTransformers.library
              (Some "facebook/opt-350m"%string) None None (Some true)
              None None) as [Hfits [_ [_ Hraises]]].
  split.
  - apply Hfits. reflexivity.
  - apply Hraises. reflexivity.
Defined.
